(** * wisharify: the Wi-Fi QR-code utility of [main.py]

    A shallow embedding of [main.py]: Python [str] values are lists of code
    points, the asynchronous command runner, the keyring and the GUI are
    effects recorded in a trace, and the operating system answers through an
    oracle that sees the whole history of the run. *)

From Stdlib Require Import Ascii String DecimalString.
From Stdlib Require Import List NArith ZArith Bool Lia.
Import ListNotations.
Local Open Scope list_scope.

(** ** Python strings *)

Module PyStr.

Local Open Scope N_scope.

(** A [str] is a sequence of Unicode code points. *)
Definition pystr := list N.

(** ASCII literals of the source. *)
Fixpoint lit (s : string) : pystr :=
  match s with
  | EmptyString => []
  | String c r => N_of_ascii c :: lit r
  end.

Fixpoint eqb (a b : pystr) : bool :=
  match a, b with
  | [], [] => true
  | x :: a', y :: b' => (x =? y) && eqb a' b'
  | _, _ => false
  end.

(** [bool(s)]: a string is truthy when it is not empty. *)
Definition truthy (s : pystr) : bool :=
  match s with [] => false | _ :: _ => true end.

(** [s.startswith(p)] *)
Fixpoint startswith (s p : pystr) {struct p} : bool :=
  match p, s with
  | [], _ => true
  | _ :: _, [] => false
  | a :: p', b :: s' => (a =? b) && startswith s' p'
  end.

(** [str.isspace] on one code point: the characters [str.strip()] removes. *)
Definition isspace (c : N) : bool :=
  ((0x09 <=? c) && (c <=? 0x0D)) || ((0x1C <=? c) && (c <=? 0x20))
  || (c =? 0x85) || (c =? 0xA0) || (c =? 0x1680)
  || ((0x2000 <=? c) && (c <=? 0x200A))
  || (c =? 0x2028) || (c =? 0x2029) || (c =? 0x202F) || (c =? 0x205F)
  || (c =? 0x3000).

Fixpoint lstrip (s : pystr) : pystr :=
  match s with
  | [] => []
  | c :: r => if isspace c then lstrip r else s
  end.

Definition rstrip (s : pystr) : pystr := rev (lstrip (rev s)).

(** [s.strip()] *)
Definition strip (s : pystr) : pystr := rstrip (lstrip s).

(** The line boundaries of [str.splitlines]. *)
Definition is_linebreak (c : N) : bool :=
  ((0x0A <=? c) && (c <=? 0x0D)) || ((0x1C <=? c) && (c <=? 0x1E))
  || (c =? 0x85) || (c =? 0x2028) || (c =? 0x2029).

(** [s.splitlines()]: [cur] holds the current line, reversed.  A carriage
    return followed by a line feed is one boundary; a final boundary opens no
    empty last line. *)
Fixpoint splitlines_from (cur s : pystr) : list pystr :=
  match s with
  | [] => match cur with [] => [] | _ :: _ => [rev cur] end
  | c :: r =>
      if is_linebreak c then
        rev cur ::
          match r with
          | c2 :: r2 =>
              if (c =? 0x0D) && (c2 =? 0x0A) then splitlines_from [] r2
              else splitlines_from [] r
          | [] => []
          end
      else splitlines_from (c :: cur) r
  end.

Definition splitlines (s : pystr) : list pystr := splitlines_from [] s.

(** [s.split(sep)] for a separator of one character, the only use in the
    source ([line.split(":")]): never an empty list, empty fields kept. *)
Fixpoint split_from (sep : N) (cur s : pystr) : list pystr :=
  match s with
  | [] => [rev cur]
  | c :: r =>
      if c =? sep then rev cur :: split_from sep [] r
      else split_from sep (c :: cur) r
  end.

Definition split (sep : N) (s : pystr) : list pystr := split_from sep [] s.

(** [str(n)] for a non-negative integer. *)
Definition of_N (n : N) : pystr :=
  lit (NilZero.string_of_uint (N.to_uint n)).

(** An f-string: literal text and interpolated values, concatenated. *)
Inductive piece :=
| Lit (s : string)
| Val (v : pystr).

Definition render (p : piece) : pystr :=
  match p with Lit s => lit s | Val v => v end.

Definition fstring (ps : list piece) : pystr := concat (map render ps).

End PyStr.
Import PyStr.

Definition colon : N := 58%N.
Definition newline : pystr := [10%N].

(** ** Configuration constants *)

Definition QR_BOX_SIZE : N := 10%N.
Definition QR_BORDER : N := 5%N.
Definition QR_IMAGE_SIZE : N := 450%N.
Definition WINDOW_TITLE : pystr := lit "Wisharify QR Code".
Definition KEYRING_SERVICE_NAME : pystr := lit "nmcli-wifi".
Definition NMCLI_WIFI_FIELDS : pystr := lit "active,ssid".
Definition NMCLI_CONNECTION_FIELDS : pystr := lit "active,uuid".
Definition NMCLI_PASSWORD_FIELD : pystr := lit "802-11-wireless-security.psk".

(** ** Exceptions, events and the environment *)

(** The exceptions a run can meet.  [CalledProcessError] is built by
    [run_command]; the others come from the runtime and the libraries, the
    number telling two of them apart.  [NonException] stands for the classes
    under [BaseException] that are not under [Exception]
    ([asyncio.CancelledError], [KeyboardInterrupt], [SystemExit]). *)
Inductive exn :=
| CalledProcessError (returncode : Z) (cmd output stderr : pystr)
| TimeoutError
| IndexError
| UnicodeDecodeError
| KeyringError (id : nat)
| OtherException (id : nat)
| NonException (id : nat).

(** [isinstance(e, Exception)] *)
Definition is_Exception (e : exn) : bool :=
  match e with NonException _ => false | _ => true end.

(** The value of [b.decode()] for the bytes [b] of a pipe: the text, or
    [None] when the bytes are not valid UTF-8. *)
Definition decoded := option pystr.

(** What [process.communicate()] hands back once the process has ended. *)
Record completed := Completed {
  returncode : Z;
  stdout : decoded;
  stderr : decoded
}.

Inductive level := DEBUG | INFO | ERROR | CRITICAL.

Inductive logarg :=
| ArgStr (s : pystr)
| ArgExn (e : exn).

Inductive event :=
| EvLog (lv : level) (fmt : string) (args : list logarg)
| EvSpawn (command : pystr) (raised : option exn)
| EvCommunicate (command : pystr) (result : exn + completed)
| EvSetKeyring
| EvGetPassword (service account : pystr) (result : exn + option pystr)
| EvSetPassword (service account password : pystr) (raised : option exn)
| EvShowError (title message : pystr)
| EvQrCode (box_size border : N) (data : pystr)
| EvQrMake (data : pystr) (raised : option exn)
| EvWindow (title geometry label : pystr) (image_size : N)
| EvMainloop.

Definition trace := list event.

(** The operating system, the keyring service, the QR encoder and the Python
    runtime: each answer may depend on everything that happened before.  The
    encoder answers with the number of the exception it raises, if any. *)
Record World := {
  os_spawn : trace -> pystr -> option exn;
  os_communicate : trace -> pystr -> exn + completed;
  kr_get_password : trace -> pystr -> pystr -> exn + option pystr;
  kr_set_password : trace -> pystr -> pystr -> pystr -> option exn;
  qr_make_raises : trace -> pystr -> option nat;
  str_of_exn : exn -> pystr
}.

(** ** The monad of effects: a trace, exceptions, the environment *)

Inductive outcome (A : Type) :=
| Return (a : A)
| Raise (e : exn).
Arguments Return {A} a.
Arguments Raise {A} e.

Definition M (A : Type) := World -> trace -> outcome A * trace.

Definition ret {A} (a : A) : M A := fun _ tr => (Return a, tr).

Definition raise {A} (e : exn) : M A := fun _ tr => (Raise e, tr).

Definition bind {A B} (m : M A) (k : A -> M B) : M B :=
  fun w tr =>
    match m w tr with
    | (Return a, tr') => k a w tr'
    | (Raise e, tr') => (Raise e, tr')
    end.

Declare Scope py_scope.
Delimit Scope py_scope with py.
Notation "x <- m ;; k" := (bind m (fun x => k))
  (at level 100, m at next level, right associativity) : py_scope.
Notation "m ;; k" := (bind m (fun _ => k))
  (at level 100, right associativity) : py_scope.
Local Open Scope py_scope.

Definition emit (e : event) : M unit := fun _ tr => (Return tt, tr ++ [e]).

(** [try: body except ...]: [handlers e] is the body of the first clause
    that matches [e], or [None] when no clause does and [e] goes on. *)
Definition try_except {A} (body : M A) (handlers : exn -> option (M A)) : M A :=
  fun w tr =>
    match body w tr with
    | (Return a, tr') => (Return a, tr')
    | (Raise e, tr') =>
        match handlers e with
        | Some h => h w tr'
        | None => (Raise e, tr')
        end
    end.

(** *** Primitive operations *)

Definition log (lv : level) (fmt : string) (args : list logarg) : M unit :=
  emit (EvLog lv fmt args).

(** [await asyncio.create_subprocess_shell(command, ...)]; the process
    object is named by its command. *)
Definition create_subprocess_shell (command : pystr) : M pystr :=
  fun w tr =>
    match os_spawn w tr command with
    | None => (Return command, tr ++ [EvSpawn command None])
    | Some e => (Raise e, tr ++ [EvSpawn command (Some e)])
    end.

(** [await process.communicate()] *)
Definition communicate (process : pystr) : M completed :=
  fun w tr =>
    let r := os_communicate w tr process in
    match r with
    | inr c => (Return c, tr ++ [EvCommunicate process r])
    | inl e => (Raise e, tr ++ [EvCommunicate process r])
    end.

Definition decode (b : decoded) : M pystr :=
  match b with
  | Some s => ret s
  | None => raise UnicodeDecodeError
  end.

(** [l[i]] on a list *)
Definition getitem (l : list pystr) (i : nat) : M pystr :=
  match nth_error l i with
  | Some x => ret x
  | None => raise IndexError
  end.

Definition keyring_get_password (service account : pystr) : M (option pystr) :=
  fun w tr =>
    let r := kr_get_password w tr service account in
    match r with
    | inr v => (Return v, tr ++ [EvGetPassword service account r])
    | inl e => (Raise e, tr ++ [EvGetPassword service account r])
    end.

Definition keyring_set_password (service account password : pystr) : M unit :=
  fun w tr =>
    let r := kr_set_password w tr service account password in
    match r with
    | None => (Return tt, tr ++ [EvSetPassword service account password r])
    | Some e => (Raise e, tr ++ [EvSetPassword service account password r])
    end.

Definition showerror (title message : pystr) : M unit :=
  emit (EvShowError title message).

(** [qr.make(fit=True)] and [qr.make_image(...)] on the data added: the
    encoder raises when the data does not fit the largest code, a
    [ValueError] in the library, an [Exception] of neither class that [main]
    catches. *)
Definition qr_make (data : pystr) : M unit :=
  fun w tr =>
    match qr_make_raises w tr data with
    | None => (Return tt, tr ++ [EvQrMake data None])
    | Some id =>
        (Raise (OtherException id),
         tr ++ [EvQrMake data (Some (OtherException id))])
    end.

(** [str(e)], as the exception's class renders it. *)
Definition py_str (e : exn) : M pystr := fun w tr => (Return (str_of_exn w e), tr).

(** [bool(x)] for [x : str | None] *)
Definition truthy_opt (x : option pystr) : bool :=
  match x with
  | Some s => truthy s
  | None => false
  end.

(** ** The program *)

Definition run_command (command : pystr) (check : bool) : M pystr :=
  log DEBUG "Running command: %s" [ArgStr command] ;;
  process <- create_subprocess_shell command ;;
  c <- communicate process ;;
  if check && negb (returncode c =? 0)%Z then
    err <- decode (stderr c) ;;
    log ERROR "Command failed: %s - Error: %s" [ArgStr command; ArgStr (strip err)] ;;
    out <- decode (stdout c) ;;
    err' <- decode (stderr c) ;;
    raise (CalledProcessError (returncode c) command out err')
  else
    out <- decode (stdout c) ;;
    ret (strip out).

Definition wifi_list_command : pystr :=
  fstring [Lit "nmcli -t -f "; Val NMCLI_WIFI_FIELDS; Lit " dev wifi"].

(** The [for] loop of [get_current_ssid]; [Some ssid] is its [return ssid],
    [None] the end of the loop. *)
Fixpoint ssid_of_lines (lines : list pystr) : M (option pystr) :=
  match lines with
  | [] => ret None
  | line :: rest =>
      if startswith line (lit "yes") then
        ssid <- getitem (split colon line) 1 ;;
        log INFO "Connected SSID: %s" [ArgStr ssid] ;;
        ret (Some ssid)
      else ssid_of_lines rest
  end.

Definition get_current_ssid : M (option pystr) :=
  returned <-
    try_except
      (output <- run_command wifi_list_command true ;;
       ssid_of_lines (splitlines output))
      (fun e =>
         match e with
         | CalledProcessError _ _ _ _ =>
             Some (log ERROR "Command failed: %s" [ArgExn e] ;; ret None)
         | TimeoutError =>
             Some (log ERROR "Command timed out: %s" [ArgExn e] ;; ret None)
         | _ =>
             if is_Exception e
             then Some (log ERROR "Unexpected error: %s" [ArgExn e] ;; ret None)
             else None
         end) ;;
  match returned with
  | Some ssid => ret (Some ssid)
  | None => ret None
  end.

Definition connection_list_command : pystr :=
  fstring [Lit "nmcli -t -f "; Val NMCLI_CONNECTION_FIELDS; Lit " connection show"].

Definition password_command (uuid : pystr) : pystr :=
  fstring [Lit "pkexec nmcli -s -g "; Val NMCLI_PASSWORD_FIELD;
           Lit " connection show "; Val uuid].

(** The [for ... else] of [get_wifi_password]; [Some uuid] is its [break],
    [None] the [else] branch. *)
Fixpoint uuid_of_lines (lines : list pystr) : M (option pystr) :=
  match lines with
  | [] => ret None
  | line :: rest =>
      if startswith line (lit "yes") then
        uuid <- getitem (split colon line) 1 ;;
        ret (Some uuid)
      else uuid_of_lines rest
  end.

Definition get_wifi_password (ssid : pystr) : M (option pystr) :=
  try_except
    (output <- run_command connection_list_command true ;;
     found <- uuid_of_lines (splitlines output) ;;
     match found with
     | None => ret None
     | Some uuid =>
         password <- run_command (password_command uuid) true ;;
         log INFO "Password retrieved for SSID '%s'" [ArgStr ssid] ;;
         ret (Some (strip password))
     end)
    (fun e =>
       if is_Exception e
       then Some (log ERROR "Failed to retrieve password for SSID '%s': %s"
                      [ArgStr ssid; ArgExn e] ;;
                  ret None)
       else None).

Definition wifi_config (ssid password : pystr) : pystr :=
  fstring [Lit "WIFI:T:WPA;S:"; Val ssid; Lit ";P:"; Val password; Lit ";;"].

Definition window_geometry : pystr :=
  fstring [Val (of_N ((QR_IMAGE_SIZE + QR_BORDER * 12)%N)); Lit "x";
           Val (of_N ((QR_IMAGE_SIZE + QR_BORDER * 12)%N))].

Definition show_qr_code (ssid password : pystr) : M unit :=
  emit (EvQrCode QR_BOX_SIZE QR_BORDER (wifi_config ssid password)) ;;
  qr_make (wifi_config ssid password) ;;
  emit (EvWindow WINDOW_TITLE window_geometry
          (fstring [Lit "Connect to: "; Val ssid]) QR_IMAGE_SIZE) ;;
  emit EvMainloop.

(** The value of a [str | None] variable known to be truthy. *)
Definition text (x : option pystr) : pystr :=
  match x with Some s => s | None => [] end.

Definition main : M unit :=
  emit EvSetKeyring ;;
  try_except
    (ssid <- get_current_ssid ;;
     if negb (truthy_opt ssid) then
       log ERROR "No SSID detected. Are you connected to a Wi-Fi network?" [] ;;
       showerror (lit "Error") (lit "No SSID detected. Connect to a Wi-Fi network.")
     else
       let ssid := text ssid in
       cached <- keyring_get_password KEYRING_SERVICE_NAME ssid ;;
       password <-
         (if negb (truthy_opt cached) then
            fetched <- get_wifi_password ssid ;;
            (if truthy_opt fetched
             then keyring_set_password KEYRING_SERVICE_NAME ssid (text fetched)
             else ret tt) ;;
            ret fetched
          else ret cached) ;;
       if truthy_opt password then
         show_qr_code ssid (text password)
       else
         log ERROR "Password not found for SSID '%s'." [ArgStr ssid] ;;
         showerror (lit "Error")
           (fstring [Lit "Password not found for SSID '"; Val ssid; Lit "'."]))
    (fun e =>
       match e with
       | CalledProcessError _ _ _ _ | KeyringError _ =>
           Some (log CRITICAL "Unexpected error: %s" [ArgExn e] ;;
                 message <- py_str e ;;
                 showerror (lit "Critical Error")
                   (fstring [Lit "An unexpected error occurred:"; Val newline;
                             Val message]))
       | _ => None
       end).

(** ** Scripted environments

    Environments for concrete runs: every process starts, the three commands
    answer as given, and so does the keyring. *)

Definition scripted (wifi connections psk : exn + completed)
    (cached : exn + option pystr) (store : option exn) : World :=
  {| os_spawn := fun _ _ => None;
     os_communicate := fun _ command =>
       if PyStr.eqb command wifi_list_command then wifi
       else if PyStr.eqb command connection_list_command then connections
       else psk;
     kr_get_password := fun _ _ _ => cached;
     kr_set_password := fun _ _ _ _ => store;
     qr_make_raises := fun _ _ => None;
     str_of_exn := fun _ => lit "error" |}.

(** A command that exits with status 0 and prints [out]. *)
Definition prints (out : pystr) : exn + completed :=
  inr (Completed 0 (Some out) (Some [])).


(** Two listings of connection profiles, and two environments around them:
    in [home] the second profile is the active one, in [offline] none is;
    the network is [home], its key [secret], the keyring is empty. *)
Definition two_active : pystr :=
  lit "no:1111" ++ newline ++ lit "yes:2222" ++ newline ++ lit "yes:3333".

Definition home : World :=
  scripted (prints (lit "yes:home")) (prints two_active) (prints (lit "secret"))
    (inr None) None.

(** The network [cafe:guest], as the terse listing prints it: the colon of
    the name escaped by a backslash. *)
Definition cafe_listing : pystr := lit "no:office" ++ newline ++ lit "yes:cafe\:guest".

Definition cafe : World :=
  scripted (prints cafe_listing) (prints two_active) (prints (lit "secret"))
    (inr None) None.

(** The run is cancelled while the command is awaited:
    [process.communicate()] raises [asyncio.CancelledError]. *)
Definition cancelled : World :=
  scripted (inl (NonException 0)) (inl (NonException 0)) (inl (NonException 0))
    (inr None) None.





(** ** The lines of a listing *)

(** The first line that [line.startswith("yes")] accepts. *)
Definition first_active (lines : list pystr) : option pystr :=
  find (fun line => startswith line (lit "yes")) lines.

Definition identifier_field (line : pystr) : option pystr :=
  nth_error (split colon line) 1.


(** What is left of [get_wifi_password] once the identifier is known: the
    elevated read of the pre-shared key of that connection. *)
Definition elevated_read (ssid uuid : pystr) (w : World) (tr : trace)
  : outcome (option pystr) * trace :=
  match run_command (password_command uuid) true w tr with
  | (Return password, tr2) =>
      (Return (Some (strip password)),
       tr2 ++ [EvLog INFO "Password retrieved for SSID '%s'" [ArgStr ssid]])
  | (Raise e, tr2) =>
      if is_Exception e
      then (Return None,
            tr2 ++ [EvLog ERROR "Failed to retrieve password for SSID '%s': %s"
                      [ArgStr ssid; ArgExn e]])
      else (Raise e, tr2)
  end.

(** ** Exceptions in the two readers *)



(** ** The events of a run *)

(** The events of a trace other than the log records. *)
Definition effects (tr : trace) : trace :=
  filter (fun e => match e with EvLog _ _ _ => false | _ => true end) tr.

(** The events of a command run: log records, spawns and awaits. *)
Definition command_event (e : event) : bool :=
  match e with
  | EvLog _ _ _ | EvSpawn _ _ | EvCommunicate _ _ => true
  | _ => false
  end.

(** ** The stages of [main] *)

(** An SSID was detected: [get_current_ssid] returned a non-empty text. *)
Definition detected (w : World) (ssid : pystr) (tr1 : trace) : Prop :=
  get_current_ssid w [EvSetKeyring] = (Return (Some ssid), tr1)
  /\ truthy ssid = true.


(** The [except] clause of [main]. *)
Definition critical (e : exn) (w : World) (tr : trace) : outcome unit * trace :=
  match e with
  | CalledProcessError _ _ _ _ | KeyringError _ =>
      (Return tt,
       tr ++ [EvLog CRITICAL "Unexpected error: %s" [ArgExn e];
              EvShowError (lit "Critical Error")
                (lit "An unexpected error occurred:" ++ newline ++ str_of_exn w e)])
  | _ => (Raise e, tr)
  end.



(** ** Processes in flight *)

(** The processes spawned and not yet awaited to their end: a spawn that
    succeeds starts one, [communicate] returning ends one. *)
Definition in_flight_after (k : nat) (e : event) : nat :=
  match e with
  | EvSpawn _ None => S k
  | EvCommunicate _ (inr _) => pred k
  | _ => k
  end.

Definition in_flight (tr : trace) : nat := fold_left in_flight_after tr 0.

(** A checker: never more than one process, and no spawn while one runs. *)
Fixpoint sequential_from (k : nat) (tr : trace) : bool :=
  match tr with
  | [] => k <=? 1
  | e :: rest =>
      (k <=? 1)
      && match e with EvSpawn _ _ => k =? 0 | _ => true end
      && sequential_from (in_flight_after k e) rest
  end.

(** ** What a run touches *)

(** The commands of the program: the two listings and the elevated read of
    one connection profile. *)
Definition program_command (c : pystr) : Prop :=
  c = wifi_list_command \/ c = connection_list_command
  \/ exists uuid, c = password_command uuid.

(** The effects a run may have: records on the console log, the three
    commands, the keyring under the service name of the program, the error
    dialog and the QR window. *)
Definition permitted (e : event) : Prop :=
  match e with
  | EvSpawn c _ | EvCommunicate c _ => program_command c
  | EvGetPassword service _ _ | EvSetPassword service _ _ _ =>
      service = KEYRING_SERVICE_NAME
  | EvLog _ _ _ | EvSetKeyring | EvShowError _ _ | EvQrCode _ _ _
  | EvQrMake _ _ | EvWindow _ _ _ _ | EvMainloop => True
  end.

(** The writes into the credential store. *)
Definition is_store (e : event) : bool :=
  match e with EvSetPassword _ _ _ _ => true | _ => false end.

Definition stores (tr : trace) : list event := filter is_store tr.

(** The account and the password of the lookups that found nothing. *)
Definition is_lookup_of (account : pystr) (e : event) : bool :=
  match e with
  | EvGetPassword _ a (inr v) => PyStr.eqb a account && negb (truthy_opt v)
  | _ => false
  end.

(** ** Dialogs and windows *)

Definition is_dialog (e : event) : bool :=
  match e with EvShowError _ _ => true | _ => false end.

Definition count_errors (tr : trace) : nat := length (filter is_dialog tr).

Definition is_window (e : event) : bool :=
  match e with
  | EvQrCode _ _ _ | EvWindow _ _ _ _ | EvMainloop => true
  | _ => false
  end.

(** The QR window was built or shown. *)
Definition shown_qr (tr : trace) : bool := existsb is_window tr.

(** ** Failures *)




Definition ends_with_dialog (tr : trace) : bool := is_dialog (last tr EvSetKeyring).

(** The run returned, one error dialog was shown, as the last thing the run
    did, and the QR window was not. *)
Definition surfaced_once (run : outcome unit * trace) : Prop :=
  fst run = Return tt
  /\ count_errors (snd run) = 1
  /\ ends_with_dialog (snd run) = true
  /\ shown_qr (snd run) = false.




(** ** The elevated read and the cache *)








(** ** Listings as the terse mode prints them *)

(** A line of the wireless listing: the active flag, a colon, the SSID. *)
Definition wifi_line (network : bool * pystr) : pystr :=
  (if fst network then lit "yes" else lit "no") ++ colon :: snd network.

(** Lines joined by line feeds. *)
Fixpoint join_lines (lines : list pystr) : pystr :=
  match lines with
  | [] => []
  | [l] => l
  | l :: rest => l ++ newline ++ join_lines rest
  end.

Definition wifi_listing (networks : list (bool * pystr)) : pystr :=
  join_lines (map wifi_line networks).

(** A text with no line boundary in it. *)
Definition one_line (s : pystr) : Prop :=
  Forall (fun c => is_linebreak c = false) s.

(** A field value: no colon and no line boundary in it. *)
Definition plain_field (s : pystr) : Prop := ~ In colon s /\ one_line s.

Definition semicolon : N := 59%N.

(** The commands a trace spawned, or tried to, in order. *)
Definition spawn_commands (tr : trace) : list pystr :=
  flat_map (fun e => match e with EvSpawn c _ => [c] | _ => [] end) tr.

(** ** The dialogs of [main] *)


(** The classes the [except] clause of [main] names. *)
Definition caught_by_main (e : exn) : bool :=
  match e with
  | CalledProcessError _ _ _ _ | KeyringError _ => true
  | _ => false
  end.




Definition raised {A} (r : outcome A) : bool :=
  match r with Raise _ => true | Return _ => false end.


(** The window was opened. *)
Definition window_opened (tr : trace) : bool :=
  existsb (fun e => match e with
                    | EvWindow _ _ _ _ | EvMainloop => true
                    | _ => false
                    end) tr.

(** The ways a run of [main] ends. *)
Inductive ending (run : outcome unit * trace) : Prop :=
| ends_with_qr :
    fst run = Return tt -> last (snd run) EvSetKeyring = EvMainloop ->
    count_errors (snd run) = 0 -> ending run
| ends_with_error :
    surfaced_once run -> ending run
| ends_raising e :
    fst run = Raise e -> caught_by_main e = false ->
    window_opened (snd run) = false -> count_errors (snd run) = 0 ->
    ending run.



(** A listing with a hidden network first, and its environment. *)
Definition street : list (bool * pystr) :=
  [(false, lit "office"); (true, lit "home net"); (true, lit "guest")].

Definition on_street : World :=
  scripted (prints (wifi_listing street)) (prints two_active)
    (prints (lit "  pass word ")) (inr None) None.


(** The listing of [street] as the command prints it, with the line feed
    that ends it. *)
Definition street_printed : World :=
  scripted (prints (wifi_listing street ++ newline)) (prints two_active)
    (prints (lit "secret")) (inr None) None.



(** * Proofs *)

(** ** Reduction of runs *)

Arguments bind {A B} m k w tr /.
Arguments ret {A} a w tr /.
Arguments raise {A} e w tr /.
Arguments emit e w tr /.
Arguments try_except {A} body handlers w tr /.
Arguments log lv fmt args w tr /.
Arguments create_subprocess_shell command w tr /.
Arguments communicate process w tr /.
Arguments decode b w tr /.
Arguments getitem l i w tr /.
Arguments keyring_get_password service account w tr /.
Arguments keyring_set_password service account password w tr /.
Arguments showerror title message w tr /.
Arguments py_str e w tr /.
Arguments run_command command check w tr /.
Arguments get_current_ssid w tr /.
Arguments get_wifi_password ssid w tr /.
Arguments show_qr_code ssid password w tr /.
Arguments qr_make data w tr /.
Arguments main w tr /.

(** The monad and the primitives, reduced; the functions of the program
    stay folded. *)
Ltac prim :=
  cbn [bind ret raise emit try_except log create_subprocess_shell communicate
       decode getitem keyring_get_password keyring_set_password showerror py_str
       qr_make truthy_opt truthy text negb andb returncode stdout stderr
       is_Exception fst snd app].

(** The whole program, reduced. *)
Ltac whole :=
  cbn [main get_current_ssid get_wifi_password run_command show_qr_code
       bind ret raise emit try_except log create_subprocess_shell communicate
       decode getitem keyring_get_password keyring_set_password showerror py_str
       qr_make truthy_opt truthy text negb andb returncode stdout stderr
       is_Exception fst snd app].

Lemma ssid_of_lines_eq lines w tr :
  ssid_of_lines lines w tr =
  match first_active lines with
  | None => (Return None, tr)
  | Some line =>
      match nth_error (split colon line) 1 with
      | Some s => (Return (Some s), tr ++ [EvLog INFO "Connected SSID: %s" [ArgStr s]])
      | None => (Raise IndexError, tr)
      end
  end.
Proof.
  induction lines as [|l ls IH]; cbn [ssid_of_lines first_active find];
    [reflexivity|].
  destruct (startswith l (lit "yes")); [|exact IH].
  prim. destruct (nth_error (split colon l) 1); reflexivity.
Qed.

Lemma uuid_of_lines_eq lines w tr :
  uuid_of_lines lines w tr =
  match first_active lines with
  | None => (Return None, tr)
  | Some line =>
      match nth_error (split colon line) 1 with
      | Some s => (Return (Some s), tr)
      | None => (Raise IndexError, tr)
      end
  end.
Proof.
  induction lines as [|l ls IH]; cbn [uuid_of_lines first_active find];
    [reflexivity|].
  destruct (startswith l (lit "yes")); [|exact IH].
  prim. destruct (nth_error (split colon l) 1); reflexivity.
Qed.

(** One step of a symbolic run: a case analysis on the next answer of the
    environment, or on the value the program looks at. *)
Ltac answer :=
  match goal with
  | |- context [ssid_of_lines ?l ?w ?tr] => rewrite (ssid_of_lines_eq l w tr)
  | |- context [uuid_of_lines ?l ?w ?tr] => rewrite (uuid_of_lines_eq l w tr)
  | |- context [os_spawn ?w ?tr ?c] => destruct (os_spawn w tr c) eqn:?
  | |- context [os_communicate ?w ?tr ?c] =>
      destruct (os_communicate w tr c) as [?|[? ? ?]] eqn:?
  | |- context [kr_get_password ?w ?tr ?a ?b] =>
      destruct (kr_get_password w tr a b) eqn:?
  | |- context [kr_set_password ?w ?tr ?a ?b ?c] =>
      destruct (kr_set_password w tr a b c) eqn:?
  | |- context [qr_make_raises ?w ?tr ?d] =>
      destruct (qr_make_raises w tr d) eqn:?
  | |- context [(?rc =? 0)%Z] => destruct (rc =? 0)%Z eqn:?
  | |- context [first_active ?l] => destruct (first_active l) eqn:?
  | |- context [nth_error (split colon ?l) 1] =>
      destruct (nth_error (split colon l) 1) eqn:?
  | |- context [truthy (strip ?l)] => destruct (strip l) eqn:?
  | |- context [is_Exception ?e] => is_var e; destruct e
  | |- context [truthy ?s] => is_var s; destruct s
  | |- context [truthy_opt ?x] => is_var x; destruct x
  | |- context [match ?x with _ => _ end] => is_var x; destruct x
  end.

Ltac run := whole; repeat (answer; whole).

(** ** The QR payload *)

Lemma wifi_config_eq s p :
  wifi_config s p = lit "WIFI:T:WPA;S:" ++ s ++ lit ";P:" ++ p ++ lit ";;".
Proof.
  unfold wifi_config, fstring. cbn [map render concat]. now rewrite app_nil_r.
Qed.



(** ** The command runner *)

(** When [run_command] returns, the process was spawned, awaited and found
    to have ended with status 0; the text returned is its decoded output,
    stripped. *)
Lemma run_command_returns command w tr output tr1 :
  run_command command true w tr = (Return output, tr1) ->
  exists c o,
    tr1 = tr ++ [EvLog DEBUG "Running command: %s" [ArgStr command];
                 EvSpawn command None; EvCommunicate command (inr c)]
    /\ returncode c = 0%Z /\ stdout c = Some o /\ output = strip o.
Proof.
  run; intros H; inversion H; subst.
  eexists (Completed _ _ _), _. rewrite <- !app_assoc. cbn [app].
  repeat split; try reflexivity.
  now apply Z.eqb_eq.
Qed.

(** ** The connection listing *)







Lemma get_wifi_password_listed ssid w tr output tr1 :
  run_command connection_list_command true w tr = (Return output, tr1) ->
  get_wifi_password ssid w tr =
  match first_active (splitlines output) with
  | None => (Return None, tr1)
  | Some line =>
      match identifier_field line with
      | Some uuid => elevated_read ssid uuid w tr1
      | None =>
          (Return None,
           tr1 ++ [EvLog ERROR "Failed to retrieve password for SSID '%s': %s"
                     [ArgStr ssid; ArgExn IndexError]])
      end
  end.
Proof.
  intros H. unfold elevated_read, identifier_field.
  cbn [get_wifi_password bind try_except]. rewrite H.
  rewrite uuid_of_lines_eq.
  destruct (first_active (splitlines output)) as [line|]; [|reflexivity].
  destruct (nth_error (split colon line) 1) as [uuid|]; [|reflexivity].
  cbn [bind getitem ret].
  destruct (run_command (password_command uuid) true w tr1) as [[p|e] tr2];
    [reflexivity|].
  destruct (is_Exception e); reflexivity.
Qed.




(** ** The active SSID *)

(** C2: on the listing line [yes:cafe\:guest] of the network [cafe:guest],
    [get_current_ssid] returns the text up to the second colon, [cafe\], and
    not the SSID field. *)
Theorem get_current_ssid_cuts_at_colon :
  fst (get_current_ssid cafe []) = Return (Some (lit "cafe" ++ [92%N]))
  /\ first_active (splitlines (strip cafe_listing)) = Some (lit "yes:cafe\:guest").
Proof. split; vm_compute; reflexivity. Qed.

(** ** Exceptions in the two readers *)





Lemma get_current_ssid_listed w tr output tr1 :
  run_command wifi_list_command true w tr = (Return output, tr1) ->
  get_current_ssid w tr =
  match first_active (splitlines output) with
  | None => (Return None, tr1)
  | Some line =>
      match nth_error (split colon line) 1 with
      | Some ssid =>
          (Return (Some ssid), tr1 ++ [EvLog INFO "Connected SSID: %s" [ArgStr ssid]])
      | None =>
          (Return None, tr1 ++ [EvLog ERROR "Unexpected error: %s" [ArgExn IndexError]])
      end
  end.
Proof.
  intros H. cbn [get_current_ssid bind try_except]. rewrite H.
  rewrite ssid_of_lines_eq.
  destruct (first_active (splitlines output)) as [line|]; [|reflexivity].
  destruct (nth_error (split colon line) 1) as [ssid|]; reflexivity.
Qed.



(** ** The SSID argument of [get_wifi_password] *)

(** C10: the result of [get_wifi_password] does not depend on its [ssid]
    argument: in the same environment, from the same history, two SSIDs give
    the same result, and the same events but for the log records. *)
Theorem get_wifi_password_ignores_ssid (ssid1 ssid2 : pystr) w tr :
  fst (get_wifi_password ssid1 w tr) = fst (get_wifi_password ssid2 w tr)
  /\ effects (snd (get_wifi_password ssid1 w tr))
     = effects (snd (get_wifi_password ssid2 w tr)).
Proof.
  run; (split; [reflexivity|]);
    unfold effects; rewrite <- ?app_assoc, ?filter_app; reflexivity.
Qed.

(** ** What the two readers add to the trace *)



(** ** The run of [main], case by case *)

Ltac go :=
  cbn [main bind ret emit try_except app keyring_get_password
       keyring_set_password truthy_opt negb text log showerror py_str].


Lemma main_ssid_raises w e tr1 :
  get_current_ssid w [EvSetKeyring] = (Raise e, tr1) ->
  main w [] = critical e w tr1.
Proof.
  intros H. go. rewrite H. unfold critical.
  destruct e; prim; rewrite <- ?app_assoc; try reflexivity;
    unfold fstring; cbn [map render concat app]; now rewrite app_nil_r.
Qed.

Lemma main_lookup_raises w ssid tr1 e :
  detected w ssid tr1 ->
  kr_get_password w tr1 KEYRING_SERVICE_NAME ssid = inl e ->
  main w [] =
    critical e w (tr1 ++ [EvGetPassword KEYRING_SERVICE_NAME ssid (inl e)]).
Proof.
  intros [H Hs] Hk. go. rewrite H. go. rewrite Hs. go. rewrite Hk.
  unfold critical.
  destruct e; prim; rewrite <- ?app_assoc; try reflexivity;
    unfold fstring; cbn [map render concat app]; now rewrite app_nil_r.
Qed.





(** ** One command at a time *)

Lemma sequential_from_prefix tr :
  forall k, sequential_from k tr = true ->
  forall n, fold_left in_flight_after (firstn n tr) k <= 1.
Proof.
  induction tr as [|e rest IH]; intros k H n.
  - rewrite firstn_nil. cbn in *. now apply Nat.leb_le.
  - cbn [sequential_from] in H.
    apply andb_prop in H. destruct H as [H Hrest].
    apply andb_prop in H. destruct H as [Hk _].
    destruct n as [|n]; cbn [firstn fold_left].
    + now apply Nat.leb_le.
    + now apply IH.
Qed.

Lemma sequential_from_spawn tr :
  forall k, sequential_from k tr = true ->
  forall pre c r post,
    tr = pre ++ EvSpawn c r :: post -> fold_left in_flight_after pre k = 0.
Proof.
  induction tr as [|e rest IH]; intros k H pre c r post E.
  - destruct pre; discriminate E.
  - cbn [sequential_from] in H.
    apply andb_prop in H. destruct H as [H Hrest].
    apply andb_prop in H. destruct H as [_ He].
    destruct pre as [|e' pre]; cbn [app] in E; injection E as -> E.
    + cbn [fold_left]. now apply Nat.eqb_eq.
    + cbn [fold_left]. now apply (IH _ Hrest pre c r post).
Qed.

Lemma main_sequential w : sequential_from 0 (snd (main w [])) = true.
Proof. run; reflexivity. Qed.

Lemma run_command_awaits command check w tr output tr1 :
  run_command command check w tr = (Return output, tr1) ->
  exists c,
    tr1 = tr ++ [EvLog DEBUG "Running command: %s" [ArgStr command];
                 EvSpawn command None; EvCommunicate command (inr c)].
Proof.
  destruct check; run; intros H; inversion H; subst;
    eexists (Completed _ _ _); rewrite <- !app_assoc; reflexivity.
Qed.

(** C6: at most one external command is in flight at any time.  When
    [run_command] returns, the process it spawned has been awaited to its
    end; at every point of a run of [main] at most one process is spawned
    and not yet ended, and each command is spawned while none is. *)
Theorem one_command_at_a_time w :
  (forall command check tr output tr1,
     run_command command check w tr = (Return output, tr1) ->
     exists c,
       tr1 = tr ++ [EvLog DEBUG "Running command: %s" [ArgStr command];
                    EvSpawn command None; EvCommunicate command (inr c)])
  /\ (forall n, in_flight (firstn n (snd (main w []))) <= 1)
  /\ (forall pre c r post,
        snd (main w []) = pre ++ EvSpawn c r :: post -> in_flight pre = 0).
Proof.
  split; [intros *; apply run_command_awaits|]. split.
  - exact (sequential_from_prefix _ 0 (main_sequential w)).
  - exact (sequential_from_spawn _ 0 (main_sequential w)).
Qed.

Lemma one_command_at_a_time_witness :
  (exists c,
     snd (run_command wifi_list_command true home [])
     = [] ++ [EvLog DEBUG "Running command: %s" [ArgStr wifi_list_command];
              EvSpawn wifi_list_command None;
              EvCommunicate wifi_list_command (inr c)])
  /\ in_flight (firstn 3 (snd (main home []))) <= 1
  /\ in_flight (firstn 7 (snd (main home []))) = 0.
Proof.
  destruct (one_command_at_a_time home) as (Hrun & Hmost & Hspawn).
  split; [|split].
  - apply (Hrun wifi_list_command true [] (lit "yes:home")). reflexivity.
  - apply Hmost.
  - apply (Hspawn (firstn 7 (snd (main home []))) connection_list_command None
             (skipn 8 (snd (main home [])))).
    reflexivity.
Defined.

(** ** What a run touches *)

Lemma eqb_refl (a : pystr) : PyStr.eqb a a = true.
Proof.
  induction a as [|x a IH]; cbn; [reflexivity|].
  now rewrite N.eqb_refl, IH.
Qed.

Ltac permit :=
  repeat first
    [ apply Forall_nil
    | apply Forall_cons;
      [ first [ exact I
              | reflexivity
              | left; reflexivity
              | right; left; reflexivity
              | right; right; eexists; reflexivity ] | ] ].

(** C7: a run reads and writes no file.  Its effects are the records of the
    console log, the three [nmcli] commands, the keyring of the program's
    service name, the error dialog and the QR window; the only write that
    outlives the run is the password put into the credential store, at most
    once, under the service name, for the SSID whose lookup found nothing. *)
Theorem only_the_keyring_persists w :
  Forall permitted (snd (main w []))
  /\ length (stores (snd (main w []))) <= 1
  /\ (forall service account password r,
        In (EvSetPassword service account password r) (snd (main w [])) ->
        service = KEYRING_SERVICE_NAME
        /\ truthy password = true
        /\ existsb (is_lookup_of account) (snd (main w [])) = true).
Proof.
  run; (split; [permit|split; [cbn; lia|]]);
    intros service account password r HIn; cbn [In] in HIn;
    repeat (destruct HIn as [HIn|HIn]; [try discriminate HIn|]);
    try contradiction;
    injection HIn as <- <- <- <-;
    (split; [reflexivity|split; [reflexivity|]]);
    cbn [existsb is_lookup_of truthy_opt truthy negb orb andb];
    rewrite eqb_refl; reflexivity.
Qed.

Lemma only_the_keyring_persists_witness :
  KEYRING_SERVICE_NAME = KEYRING_SERVICE_NAME
  /\ truthy (lit "secret") = true
  /\ existsb (is_lookup_of (lit "home")) (snd (main home [])) = true.
Proof.
  apply (proj2 (proj2 (only_the_keyring_persists home))
           KEYRING_SERVICE_NAME (lit "home") (lit "secret") None).
  vm_compute. tauto.
Defined.

(** ** Histories without dialog or window *)





(** ** The empty password *)




(** ** Failures *)













(** ** The elevated read and the cache *)













(** * Further properties of the program *)

(** ** Stripped texts *)

Lemma lstrip_head s c r : lstrip s = c :: r -> isspace c = false.
Proof.
  induction s as [|a s IH]; cbn [lstrip]; [discriminate|].
  destruct (isspace a) eqn:E; [exact IH|].
  intros H. injection H as <- _. exact E.
Qed.

Lemma lstrip_fixed c r : isspace c = false -> lstrip (c :: r) = c :: r.
Proof. intros H. cbn [lstrip]. now rewrite H. Qed.

Lemma lstrip_idempotent s : lstrip (lstrip s) = lstrip s.
Proof.
  destruct (lstrip s) as [|c r] eqn:E; [reflexivity|].
  apply lstrip_fixed. exact (lstrip_head _ _ _ E).
Qed.

Lemma lstrip_suffix s : exists blanks, s = blanks ++ lstrip s.
Proof.
  induction s as [|a s [b IH]]; [now exists []|].
  cbn [lstrip]. destruct (isspace a).
  - exists (a :: b). cbn [app]. now rewrite <- IH.
  - now exists [].
Qed.

Lemma rstrip_prefix s : exists blanks, s = rstrip s ++ blanks.
Proof.
  unfold rstrip. destruct (lstrip_suffix (rev s)) as [b E].
  exists (rev b). rewrite <- rev_app_distr, <- E. now rewrite rev_involutive.
Qed.

Lemma strip_head s c r : strip s = c :: r -> isspace c = false.
Proof.
  unfold strip. intros H.
  destruct (rstrip_prefix (lstrip s)) as [b E]. rewrite H in E.
  cbn [app] in E. exact (lstrip_head _ _ _ E).
Qed.

Lemma strip_last s r c : strip s = r ++ [c] -> isspace c = false.
Proof.
  unfold strip, rstrip. intros H.
  apply (f_equal (@rev N)) in H. rewrite rev_involutive, rev_app_distr in H.
  cbn [rev app] in H. exact (lstrip_head _ _ _ H).
Qed.

Lemma strip_idempotent s : strip (strip s) = strip s.
Proof.
  assert (L : lstrip (strip s) = strip s).
  { destruct (strip s) as [|c r] eqn:E; [reflexivity|].
    apply lstrip_fixed. exact (strip_head _ _ _ E). }
  unfold strip at 1. rewrite L. unfold strip, rstrip.
  now rewrite rev_involutive, lstrip_idempotent.
Qed.

(** ** Fields and lines *)

Lemma split_from_fields sep cur s :
  ~ In sep cur ->
  Forall (fun f => ~ In sep f /\ forall x, In x f -> In x cur \/ In x s)
    (split_from sep cur s).
Proof.
  revert cur. induction s as [|c s IH]; intros cur Hcur; cbn [split_from].
  - constructor; [|constructor]. split.
    + now rewrite <- in_rev.
    + intros x Hx. left. now apply in_rev.
  - destruct (N.eqb c sep) eqn:E.
    + constructor.
      * split; [now rewrite <- in_rev|].
        intros x Hx. left. now apply in_rev.
      * assert (H0 : ~ In sep (@nil N)) by (intros []).
        eapply Forall_impl; [|exact (IH [] H0)].
        intros f [Hf Hin]. split; [exact Hf|].
        intros x Hx. destruct (Hin x Hx) as [[]|Hs]. right. now right.
    + apply N.eqb_neq in E.
      assert (H1 : ~ In sep (c :: cur)).
      { intros [H|H]; [now apply E|now apply Hcur]. }
      eapply Forall_impl; [|exact (IH (c :: cur) H1)].
      intros f [Hf Hin]. split; [exact Hf|].
      intros x Hx. destruct (Hin x Hx) as [[<-|Hc]|Hs].
      * right. now left.
      * now left.
      * right. now right.
Qed.

Lemma split_field line f :
  In f (split colon line) -> ~ In colon f /\ forall x, In x f -> In x line.
Proof.
  intros H.
  assert (H0 : ~ In colon (@nil N)) by (intros []).
  pose proof (split_from_fields colon [] line H0) as F.
  rewrite Forall_forall in F. destruct (F f H) as [Hf Hin].
  split; [exact Hf|]. intros x Hx. now destruct (Hin x Hx) as [[]|].
Qed.

Lemma splitlines_from_one_line s :
  (forall cur, one_line cur -> Forall one_line (splitlines_from cur s))
  /\ (forall c cur, one_line cur -> Forall one_line (splitlines_from cur (c :: s))).
Proof.
  assert (Hrev : forall cur, one_line cur -> one_line (rev cur)).
  { intros cur H. unfold one_line in *. rewrite Forall_forall in *.
    intros x Hx. apply H. now apply in_rev. }
  induction s as [|a s [IH1 IH2]].
  - split.
    + intros cur H. cbn. destruct cur; repeat constructor. now apply (Hrev (n :: cur)).
    + intros c cur H. cbn [splitlines_from].
      destruct (is_linebreak c) eqn:E.
      * repeat constructor. now apply Hrev.
      * constructor; [|constructor]. apply (Hrev (c :: cur)). now constructor.
  - split; [apply IH2|].
    intros c cur H. cbn [splitlines_from].
    destruct (is_linebreak c) eqn:E.
    + constructor; [now apply Hrev|].
      destruct ((c =? 13)%N && (a =? 10)%N).
      * apply IH1. constructor.
      * apply IH2. constructor.
    + apply IH2. now constructor.
Qed.

Lemma splitlines_one_line s : Forall one_line (splitlines s).
Proof. apply (proj1 (splitlines_from_one_line s)). constructor. Qed.

(** The second field of the first active line of a text. *)
Lemma active_field_plain s line f :
  first_active (splitlines s) = Some line ->
  nth_error (split colon line) 1 = Some f ->
  plain_field f.
Proof.
  intros Hf Hn. apply find_some in Hf. destruct Hf as [Hin _].
  pose proof (splitlines_one_line s) as L. rewrite Forall_forall in L.
  specialize (L line Hin). apply nth_error_In in Hn.
  destruct (split_field _ _ Hn) as [Hc Hsub]. split; [exact Hc|].
  unfold one_line in *. rewrite Forall_forall in *.
  intros x Hx. apply L. now apply Hsub.
Qed.

(** ** What [run_command] returns *)

(** X1: whatever [run_command] returns has no white space at either end,
    and is the decoded output of a process that was spawned and awaited; with
    [check] set the process ended with status 0. *)
Theorem run_command_output command check w tr output tr1 :
  run_command command check w tr = (Return output, tr1) ->
  strip output = output
  /\ (forall c r, output = c :: r -> isspace c = false)
  /\ (forall r c, output = r ++ [c] -> isspace c = false)
  /\ exists c o,
       os_communicate w
         (tr ++ [EvLog DEBUG "Running command: %s" [ArgStr command];
                 EvSpawn command None]) command = inr c
       /\ stdout c = Some o /\ output = strip o
       /\ (check = true -> returncode c = 0%Z).
Proof.
  replace (tr ++ [EvLog DEBUG "Running command: %s" [ArgStr command];
                  EvSpawn command None])
    with ((tr ++ [EvLog DEBUG "Running command: %s" [ArgStr command]])
            ++ [EvSpawn command None])
    by now rewrite <- app_assoc.
  destruct check; run; intros H; inversion H; subst;
    (split; [apply strip_idempotent|]);
    (split; [intros c r E; exact (strip_head _ _ _ E)|]);
    (split; [intros r c E; exact (strip_last _ _ _ E)|]);
    eexists (Completed _ _ _), _; repeat split; try reflexivity;
    try discriminate; intros _; now apply Z.eqb_eq.
Qed.

Lemma run_command_output_witness :
  strip (lit "pass word") = lit "pass word"
  /\ isspace 112 = false.
Proof.
  destruct (run_command_output (password_command (lit "2222")) true on_street []
              (lit "pass word")
              (snd (run_command (password_command (lit "2222")) true on_street []))
              eq_refl) as (Hs & Hh & _).
  split; [exact Hs|].
  exact (Hh 112%N (lit "ass word") eq_refl).
Defined.

(** ** The values the readers return *)

Lemma get_wifi_password_listing_raises ssid w tr e tr1 :
  run_command connection_list_command true w tr = (Raise e, tr1) ->
  fst (get_wifi_password ssid w tr)
  = if is_Exception e then Return None else Raise e.
Proof.
  intros H. cbn [get_wifi_password bind try_except]. rewrite H.
  destruct (is_Exception e); reflexivity.
Qed.

(** X2: a password that [get_wifi_password] returns is the output of the
    elevated command for an identifier with no colon and no line boundary in
    it, and has no white space at either end: the second [strip] changes
    nothing, and a key that begins or ends with a blank is never returned
    as it is. *)
Theorem get_wifi_password_trimmed ssid w tr password :
  fst (get_wifi_password ssid w tr) = Return (Some password) ->
  strip password = password
  /\ (forall c r, password = c :: r -> isspace c = false)
  /\ (forall r c, password = r ++ [c] -> isspace c = false)
  /\ exists uuid tr1 tr2,
       plain_field uuid
       /\ run_command (password_command uuid) true w tr1 = (Return password, tr2).
Proof.
  intros H.
  destruct (run_command connection_list_command true w tr) as [[output|e] tr1]
    eqn:Hl.
  - rewrite (get_wifi_password_listed _ _ _ _ _ Hl) in H.
    destruct (first_active (splitlines output)) as [line|] eqn:Hf;
      [|discriminate H].
    destruct (identifier_field line) as [uuid|] eqn:Hu; [|discriminate H].
    unfold elevated_read in H.
    destruct (run_command (password_command uuid) true w tr1) as [[p|e] tr2]
      eqn:Hp.
    + destruct (run_command_returns _ _ _ _ _ Hp) as (c & o & _ & _ & _ & Ho).
      assert (Hs : strip p = p) by (rewrite Ho; apply strip_idempotent).
      cbn [fst] in H. rewrite Hs in H. injection H as <-.
      split; [exact Hs|].
      split; [intros c0 r E; rewrite Ho in E; exact (strip_head _ _ _ E)|].
      split; [intros r c0 E; rewrite Ho in E; exact (strip_last _ _ _ E)|].
      exists uuid, tr1, tr2. split; [|exact Hp].
      exact (active_field_plain _ _ _ Hf Hu).
    + destruct (is_Exception e); discriminate H.
  - rewrite (get_wifi_password_listing_raises _ _ _ _ _ Hl) in H.
    destruct (is_Exception e); discriminate H.
Qed.

Lemma get_wifi_password_trimmed_witness :
  strip (lit "pass word") = lit "pass word"
  /\ exists uuid tr1 tr2,
       plain_field uuid
       /\ run_command (password_command uuid) true on_street tr1
          = (Return (lit "pass word"), tr2).
Proof.
  destruct (get_wifi_password_trimmed (lit "home net") on_street []
              (lit "pass word") eq_refl) as (Hs & _ & _ & Hr).
  split; [exact Hs|exact Hr].
Defined.

(** X3: an SSID that [get_current_ssid] returns has no colon and no line
    boundary in it. *)
Theorem get_current_ssid_plain w tr ssid :
  fst (get_current_ssid w tr) = Return (Some ssid) -> plain_field ssid.
Proof.
  run; intros H; try discriminate H; injection H as <-;
    eapply active_field_plain; eassumption.
Qed.

Lemma get_current_ssid_plain_witness : plain_field (lit "cafe" ++ [92%N]).
Proof.
  apply (get_current_ssid_plain cafe []). reflexivity.
Defined.

(** ** Reading back a listing *)

Lemma split_from_plain sep cur s :
  ~ In sep s -> split_from sep cur s = [rev cur ++ s].
Proof.
  revert cur. induction s as [|c s IH]; intros cur H; cbn [split_from].
  - now rewrite app_nil_r.
  - destruct (N.eqb c sep) eqn:E.
    + apply N.eqb_eq in E. exfalso. apply H. now left.
    + rewrite IH by (intros Hs; apply H; now right).
      cbn [rev]. now rewrite <- app_assoc.
Qed.

Lemma split_from_first sep cur pre s :
  ~ In sep pre ->
  split_from sep cur (pre ++ sep :: s) = (rev cur ++ pre) :: split_from sep [] s.
Proof.
  revert cur. induction pre as [|c pre IH]; intros cur H; cbn [app split_from].
  - now rewrite N.eqb_refl, app_nil_r.
  - destruct (N.eqb c sep) eqn:E.
    + apply N.eqb_eq in E. exfalso. apply H. now left.
    + rewrite IH by (intros Hs; apply H; now right).
      cbn [rev]. now rewrite <- app_assoc.
Qed.

Lemma split_wifi_line network :
  ~ In colon (snd network) ->
  split colon (wifi_line network)
  = [if fst network then lit "yes" else lit "no"; snd network].
Proof.
  intros H. unfold split, wifi_line.
  rewrite split_from_first
    by (clear; destruct network as [[] ssid]; vm_compute; intuition congruence).
  rewrite split_from_plain by exact H. reflexivity.
Qed.

Lemma startswith_wifi_line network :
  startswith (wifi_line network) (lit "yes") = fst network.
Proof. destruct network as [[] ssid]; reflexivity. Qed.

Lemma first_active_wifi_lines networks :
  first_active (map wifi_line networks)
  = option_map wifi_line (find fst networks).
Proof.
  induction networks as [|network rest IH]; [reflexivity|].
  cbn [map first_active find]. rewrite startswith_wifi_line.
  destruct (fst network); [reflexivity|exact IH].
Qed.

Lemma splitlines_from_line cur l rest :
  one_line l ->
  splitlines_from cur (l ++ newline ++ rest)
  = (rev cur ++ l) :: splitlines_from [] rest.
Proof.
  revert cur. induction l as [|c l IH]; intros cur H.
  - cbn [app newline splitlines_from]. rewrite app_nil_r.
    destruct rest; reflexivity.
  - inversion H as [|? ? Hc Hl]; subst. cbn [app splitlines_from].
    rewrite Hc, (IH (c :: cur) Hl). cbn [rev]. now rewrite <- app_assoc.
Qed.

Lemma splitlines_from_last cur l :
  one_line l -> l <> [] -> splitlines_from cur l = [rev cur ++ l].
Proof.
  revert cur. induction l as [|c l IH]; intros cur H Hne; [contradiction|].
  inversion H as [|? ? Hc Hl]; subst. cbn [splitlines_from]. rewrite Hc.
  destruct l as [|d l].
  - cbn [splitlines_from rev]. reflexivity.
  - rewrite (IH (c :: cur) Hl) by discriminate.
    cbn [rev]. now rewrite <- app_assoc.
Qed.

Lemma splitlines_join_lines lines :
  Forall (fun l => one_line l /\ l <> []) lines ->
  splitlines (join_lines lines) = lines.
Proof.
  induction 1 as [|l rest [Hl Hne] Hrest IH]; [reflexivity|].
  destruct rest as [|l' rest'].
  - cbn [join_lines]. unfold splitlines. now rewrite splitlines_from_last.
  - change (join_lines (l :: l' :: rest'))
      with (l ++ newline ++ join_lines (l' :: rest')).
    unfold splitlines in *. rewrite splitlines_from_line by exact Hl.
    now rewrite IH.
Qed.

Lemma wifi_line_one_line network :
  one_line (snd network) ->
  one_line (wifi_line network) /\ wifi_line network <> [].
Proof.
  intros H. split; [|destruct network as [[] ssid]; discriminate].
  unfold one_line, wifi_line.
  apply Forall_app. split.
  - destruct (fst network); repeat constructor.
  - constructor; [reflexivity|exact H].
Qed.

Lemma get_current_ssid_reads_stripped networks w tr tr1 :
  Forall (fun network => plain_field (snd network)) networks ->
  run_command wifi_list_command true w tr = (Return (wifi_listing networks), tr1) ->
  fst (get_current_ssid w tr) = Return (option_map snd (find fst networks)).
Proof.
  intros Hplain Hrun.
  rewrite (get_current_ssid_listed _ _ _ _ Hrun). unfold wifi_listing.
  rewrite splitlines_join_lines.
  - rewrite first_active_wifi_lines.
    destruct (find fst networks) as [network|] eqn:Hfind; [|reflexivity].
    cbn [option_map].
    apply find_some in Hfind. destruct Hfind as [Hin _].
    rewrite Forall_forall in Hplain. destruct (Hplain _ Hin) as [Hc _].
    now rewrite (split_wifi_line network Hc).
  - rewrite Forall_forall in *. intros l Hl.
    apply in_map_iff in Hl. destruct Hl as (network & <- & Hin).
    apply wifi_line_one_line. exact (proj2 (Hplain _ Hin)).
Qed.

(** White space after the text is stripped, and nothing else, when the text
    begins and ends with other characters. *)
Lemma lstrip_blanks blanks s :
  Forall (fun x => isspace x = true) blanks -> lstrip (blanks ++ s) = lstrip s.
Proof.
  induction 1 as [|x blanks Hx _ IH]; [reflexivity|].
  cbn [app lstrip]. now rewrite Hx.
Qed.

Lemma rstrip_blanks r x blanks :
  isspace x = false -> Forall (fun y => isspace y = true) blanks ->
  rstrip ((r ++ [x]) ++ blanks) = r ++ [x].
Proof.
  intros Hx Hb. unfold rstrip.
  rewrite rev_app_distr, lstrip_blanks by now apply Forall_rev.
  rewrite rev_app_distr. cbn [rev app]. rewrite lstrip_fixed by exact Hx.
  cbn [rev]. now rewrite rev_involutive.
Qed.

Lemma strip_between c m r x blanks :
  c :: m = r ++ [x] -> isspace c = false -> isspace x = false ->
  Forall (fun y => isspace y = true) blanks ->
  strip ((c :: m) ++ blanks) = c :: m.
Proof.
  intros E Hc Hx Hb. unfold strip.
  cbn [app]. rewrite lstrip_fixed by exact Hc.
  change (c :: m ++ blanks) with ((c :: m) ++ blanks).
  rewrite E. now apply rstrip_blanks.
Qed.

Lemma strip_all_blanks blanks :
  Forall (fun y => isspace y = true) blanks -> strip blanks = [].
Proof.
  intros Hb. unfold strip.
  rewrite <- (app_nil_r blanks), lstrip_blanks by exact Hb. reflexivity.
Qed.

Lemma join_lines_last l lines :
  exists pre, join_lines (l :: lines) = pre ++ last (l :: lines) [].
Proof.
  revert l. induction lines as [|l' lines IH]; intros l.
  - now exists [].
  - destruct (IH l') as [pre E].
    exists (l ++ newline ++ pre).
    change (join_lines (l :: l' :: lines))
      with (l ++ newline ++ join_lines (l' :: lines)).
    rewrite E. change (last (l :: l' :: lines) []) with (last (l' :: lines) []).
    now rewrite <- !app_assoc.
Qed.

Lemma wifi_line_ends (network : bool * pystr) :
  exists r x,
    wifi_line network = r ++ [x]
    /\ (x = colon \/ exists r', snd network = r' ++ [x]).
Proof.
  unfold wifi_line. destruct (snd network) as [|c ssid] eqn:E.
  - exists (if fst network then lit "yes" else lit "no"), colon.
    split; [reflexivity|now left].
  - destruct (exists_last (l := c :: ssid)) as (r' & x & Er); [discriminate|].
    exists ((if fst network then lit "yes" else lit "no") ++ colon :: r'), x.
    rewrite Er. split; [now rewrite <- app_assoc|].
    right. now exists r'.
Qed.

Lemma last_map_cons {A B} (f : A -> B) a l d d' :
  last (map f (a :: l)) d' = f (last (a :: l) d).
Proof.
  revert a. induction l as [|b l IH]; intros a; [reflexivity|].
  change (last (map f (a :: b :: l)) d') with (last (map f (b :: l)) d').
  change (last (a :: b :: l) d) with (last (b :: l) d). apply IH.
Qed.

Lemma wifi_listing_head (network : bool * pystr) (networks : list (bool * pystr)) :
  exists c m, wifi_listing (network :: networks) = c :: m /\ isspace c = false.
Proof.
  unfold wifi_listing, wifi_line. cbn [map join_lines].
  destruct (map _ networks); destruct (fst network); cbn [lit app];
    eexists _, _; (split; [reflexivity|reflexivity]).
Qed.

Lemma wifi_listing_last (network : bool * pystr) (networks : list (bool * pystr)) :
  exists r x,
    wifi_listing (network :: networks) = r ++ [x]
    /\ (x = colon
        \/ exists r', snd (last (network :: networks) (false, [])) = r' ++ [x]).
Proof.
  unfold wifi_listing. cbn [map].
  destruct (join_lines_last (wifi_line network) (map wifi_line networks))
    as [pre E].
  change (wifi_line network :: map wifi_line networks)
    with (map wifi_line (network :: networks)) in E.
  rewrite (last_map_cons wifi_line network networks (false, [])) in E.
  destruct (wifi_line_ends (last (network :: networks) (false, [])))
    as (r & x & Er & Hx).
  exists (pre ++ r), x. split; [|exact Hx].
  change (wifi_line network :: map wifi_line networks)
    with (map wifi_line (network :: networks)).
  rewrite E, Er. now rewrite app_assoc.
Qed.

Lemma strip_wifi_listing (networks : list (bool * pystr)) (blanks : pystr) :
  (forall r x, snd (last networks (false, [])) = r ++ [x] -> isspace x = false) ->
  Forall (fun y => isspace y = true) blanks ->
  strip (wifi_listing networks ++ blanks) = wifi_listing networks.
Proof.
  intros Hlast Hb. destruct networks as [|network networks].
  - cbn [wifi_listing map join_lines app]. now apply strip_all_blanks.
  - destruct (wifi_listing_head network networks) as (c & m & E & Hc).
    destruct (wifi_listing_last network networks) as (r & x & Er & Hx).
    rewrite E in *. apply (strip_between c m r x); try assumption.
    destruct Hx as [->|[r' Hr']]; [reflexivity|].
    exact (Hlast _ _ Hr').
Qed.

Lemma run_command_prints command w tr c o :
  os_spawn w (tr ++ [EvLog DEBUG "Running command: %s" [ArgStr command]])
    command = None ->
  os_communicate w
    (tr ++ [EvLog DEBUG "Running command: %s" [ArgStr command];
            EvSpawn command None]) command = inr c ->
  returncode c = 0%Z ->
  stdout c = Some o ->
  run_command command true w tr
  = (Return (strip o),
     tr ++ [EvLog DEBUG "Running command: %s" [ArgStr command];
            EvSpawn command None; EvCommunicate command (inr c)]).
Proof.
  intros Hs Hc Hr Ho. destruct c as [rc out err]. cbn [returncode stdout] in *.
  subst rc out.
  replace (tr ++ [EvLog DEBUG "Running command: %s" [ArgStr command];
                  EvSpawn command None])
    with ((tr ++ [EvLog DEBUG "Running command: %s" [ArgStr command]])
            ++ [EvSpawn command None]) in Hc
    by now rewrite <- app_assoc.
  whole. rewrite Hs. whole. rewrite Hc. whole.
  now rewrite <- !app_assoc.
Qed.

(** X4: the listing read back.  When the wireless listing command ends with
    status 0 and prints the lines [yes:SSID] and [no:SSID] of a list of
    networks, followed by any white space, where no SSID has a colon or a
    line boundary in it and the last SSID does not end with white space,
    [get_current_ssid] returns the SSID of the first active network, and
    [None] when none is active. *)
Theorem get_current_ssid_reads_listing
    (networks : list (bool * pystr)) (blanks : pystr) w tr c :
  Forall (fun network => plain_field (snd network)) networks ->
  (forall r x, snd (last networks (false, [])) = r ++ [x] -> isspace x = false) ->
  Forall (fun y => isspace y = true) blanks ->
  os_spawn w (tr ++ [EvLog DEBUG "Running command: %s" [ArgStr wifi_list_command]])
    wifi_list_command = None ->
  os_communicate w
    (tr ++ [EvLog DEBUG "Running command: %s" [ArgStr wifi_list_command];
            EvSpawn wifi_list_command None]) wifi_list_command = inr c ->
  returncode c = 0%Z ->
  stdout c = Some (wifi_listing networks ++ blanks) ->
  fst (get_current_ssid w tr) = Return (option_map snd (find fst networks)).
Proof.
  intros Hplain Hlast Hb Hs Hc Hr Ho.
  pose proof (run_command_prints _ _ _ _ _ Hs Hc Hr Ho) as Hrun.
  rewrite (strip_wifi_listing _ _ Hlast Hb) in Hrun.
  exact (get_current_ssid_reads_stripped _ _ _ _ Hplain Hrun).
Qed.

Ltac plain :=
  repeat first
    [ apply Forall_nil
    | apply Forall_cons;
      [ split;
        [ vm_compute; intuition congruence
        | repeat constructor ] | ] ].

Lemma get_current_ssid_reads_listing_witness :
  fst (get_current_ssid street_printed []) = Return (Some (lit "home net")).
Proof.
  apply (get_current_ssid_reads_listing street newline street_printed []
           (Completed 0 (Some (wifi_listing street ++ newline)) (Some []))).
  - unfold street. plain.
  - intros r x E.
    change (snd (last street (false, []))) with (lit "gues" ++ [116%N]) in E.
    apply app_inj_tail in E. destruct E as [_ <-]. reflexivity.
  - repeat constructor.
  - reflexivity.
  - reflexivity.
  - reflexivity.
  - reflexivity.
Defined.
(** ** The fields of the QR payload *)

Lemma first_semicolon s s' x y :
  ~ In semicolon s -> ~ In semicolon s' ->
  s ++ semicolon :: x = s' ++ semicolon :: y -> s = s' /\ x = y.
Proof.
  revert s'. induction s as [|c s IH]; intros [|c' s'] Hs Hs' E; cbn [app] in E.
  - injection E as E. now split.
  - injection E as E _. exfalso. apply Hs'. now left.
  - injection E as E _. exfalso. apply Hs. now left.
  - injection E as -> E.
    destruct (IH s' (fun H => Hs (or_intror H)) (fun H => Hs' (or_intror H)) E)
      as [-> ->].
    now split.
Qed.

(** X5: the QR payload escapes nothing, so its fields can shift: an SSID
    that contains [;P:] gives the payload of a shorter SSID with a longer
    password.  Among SSIDs with no semicolon in them the payload tells the
    SSID and the password apart. *)
Theorem wifi_config_fields :
  (forall a b c,
     wifi_config (a ++ lit ";P:" ++ b) c = wifi_config a (b ++ lit ";P:" ++ c))
  /\ (forall s p s' p',
        ~ In semicolon s -> ~ In semicolon s' ->
        wifi_config s p = wifi_config s' p' -> s = s' /\ p = p').
Proof.
  split.
  - intros a b c. rewrite !wifi_config_eq. now rewrite <- !app_assoc.
  - intros s p s' p' Hs Hs' E. rewrite !wifi_config_eq in E.
    apply app_inv_head in E.
    change (lit ";P:" ++ p ++ lit ";;")
      with (semicolon :: lit "P:" ++ p ++ lit ";;") in E.
    change (lit ";P:" ++ p' ++ lit ";;")
      with (semicolon :: lit "P:" ++ p' ++ lit ";;") in E.
    destruct (first_semicolon _ _ _ _ Hs Hs' E) as [-> E'].
    split; [reflexivity|].
    apply app_inv_head in E'. now apply app_inv_tail in E'.
Qed.

Lemma wifi_config_fields_witness :
  wifi_config (lit "a;P:b") (lit "c") = wifi_config (lit "a") (lit "b;P:c")
  /\ lit "home" = lit "home" /\ lit "x;y" = lit "x;y".
Proof.
  split.
  - exact (proj1 wifi_config_fields (lit "a") (lit "b") (lit "c")).
  - apply (proj2 wifi_config_fields (lit "home") (lit "x;y") (lit "home") (lit "x;y"));
      [vm_compute; intuition congruence|vm_compute; intuition congruence|].
    reflexivity.
Defined.

(** ** What escapes the readers and [main] *)

(** X6: an exception that leaves [get_current_ssid] or [get_wifi_password]
    is no instance of [Exception]: no [CalledProcessError] of a failed
    command, no [IndexError] of a malformed line reaches the caller. *)
Theorem readers_raise_no_exception w tr ssid e :
  (fst (get_current_ssid w tr) = Raise e -> is_Exception e = false)
  /\ (fst (get_wifi_password ssid w tr) = Raise e -> is_Exception e = false).
Proof.
  split; run; intros H; try discriminate H; injection H as <-; reflexivity.
Qed.

Lemma readers_raise_no_exception_witness :
  is_Exception (NonException 0) = false.
Proof.
  exact (proj1 (readers_raise_no_exception cancelled [] (lit "home")
                  (NonException 0)) eq_refl).
Defined.



(** X9: a run of [main] ends in one of three ways: with the QR window, its
    main loop the last thing of the run and no error dialog; with one error
    dialog, shown last, and no QR window; or with an exception of a class
    [main] does not catch, no window opened and no dialog shown. *)
Theorem main_ending w : ending (main w []).
Proof.
  run;
    first
      [ apply ends_with_error; repeat split; reflexivity
      | apply ends_with_qr; reflexivity
      | eapply ends_raising; reflexivity ].
Qed.

(** ** The commands of a run *)


Lemma get_current_ssid_spawns w tr :
  exists evs,
    snd (get_current_ssid w tr) = tr ++ evs
    /\ forallb command_event evs = true
    /\ spawn_commands evs = [wifi_list_command].
Proof.
  run; rewrite <- ?app_assoc; cbn [app]; eexists;
    (split; [reflexivity|split; reflexivity]).
Qed.

Lemma get_wifi_password_spawns ssid w tr :
  exists evs,
    snd (get_wifi_password ssid w tr) = tr ++ evs
    /\ forallb command_event evs = true
    /\ (spawn_commands evs = [connection_list_command]
        \/ exists uuid,
             plain_field uuid
             /\ spawn_commands evs
                = [connection_list_command; password_command uuid]).
Proof.
  run; rewrite <- ?app_assoc; cbn [app]; eexists;
    (split; [reflexivity|split; [reflexivity|]]);
    first
      [ left; reflexivity
      | right; eexists; split; [|reflexivity];
        eapply active_field_plain; eassumption ].
Qed.

(** X10: the readers run commands and write log records, nothing else:
    [get_current_ssid] spawns the wireless listing and no other command;
    [get_wifi_password] spawns the connection listing and then, at most, the
    elevated read of one identifier, which has no colon and no line boundary
    in it. *)
Theorem readers_spawn w tr ssid :
  (exists evs,
     snd (get_current_ssid w tr) = tr ++ evs
     /\ forallb command_event evs = true
     /\ spawn_commands evs = [wifi_list_command])
  /\ (exists evs,
        snd (get_wifi_password ssid w tr) = tr ++ evs
        /\ forallb command_event evs = true
        /\ (spawn_commands evs = [connection_list_command]
            \/ exists uuid,
                 plain_field uuid
                 /\ spawn_commands evs
                    = [connection_list_command; password_command uuid])).
Proof.
  split; [apply get_current_ssid_spawns|apply get_wifi_password_spawns].
Qed.





(** ** The password of the QR code *)

Ltac among := cbn [In]; solve [repeat first [left; reflexivity | right]].

(** X12: the data that [main] gives to the QR encoder carry the SSID of the
    keyring lookup and a password that the keyring holds for that SSID: the
    one the lookup returned, or the one just stored without error; and a
    window, when one is opened, is labelled with that SSID. *)
Theorem qr_matches_keyring w box border data :
  In (EvQrCode box border data) (snd (main w [])) ->
  exists ssid password,
    data = wifi_config ssid password
    /\ (In (EvGetPassword KEYRING_SERVICE_NAME ssid (inr (Some password)))
           (snd (main w []))
        \/ In (EvSetPassword KEYRING_SERVICE_NAME ssid password None)
             (snd (main w [])))
    /\ (forall title geometry label size,
          In (EvWindow title geometry label size) (snd (main w [])) ->
          label = fstring [Lit "Connect to: "; Val ssid]).
Proof.
  run; intros H; cbn [In] in H;
    repeat (destruct H as [H|H]; [try discriminate H|]);
    try contradiction;
    injection H as <- <- <-;
    eexists _, _;
    (split; [reflexivity|split; [first [left; among | right; among]|]]);
    intros title geometry label size Hw; cbn [In] in Hw;
    repeat (destruct Hw as [Hw|Hw]; [try discriminate Hw|]);
    try contradiction;
    injection Hw as <- <- <- <-; reflexivity.
Qed.

Lemma qr_matches_keyring_witness :
  exists ssid password,
    wifi_config (lit "home") (lit "secret") = wifi_config ssid password
    /\ (In (EvGetPassword KEYRING_SERVICE_NAME ssid (inr (Some password)))
           (snd (main home []))
        \/ In (EvSetPassword KEYRING_SERVICE_NAME ssid password None)
             (snd (main home [])))
    /\ (forall title geometry label size,
          In (EvWindow title geometry label size) (snd (main home [])) ->
          label = fstring [Lit "Connect to: "; Val ssid]).
Proof.
  apply (qr_matches_keyring home QR_BOX_SIZE QR_BORDER).
  vm_compute. tauto.
Defined.
